(** * Transport and connection capability checks of py-libp2p

    A shallow embedding of [libp2p/transport/capabilities.py]: the helpers
    with which the swarm branches on what a transport or a muxed connection
    offers (attribute probes with [getattr], [hasattr], [callable] and
    [bool]) instead of on concrete classes. *)

From Stdlib Require Import ZArith.
From stdpp Require Import base option strings gmap fin_maps.

Open Scope string_scope.

(** ** Python run-time values and objects *)

Module Py.

(** The values an attribute is bound to in the module's callers and tests:
    [None], booleans, integers, strings, plain instances ([object()], a
    class instance) and callables taking no argument (a bound method, a
    [Mock]).  A callable carries what calling it does. *)
Inductive value : Type :=
| VNone
| VBool (b : bool)
| VInt (n : Z)
| VStr (s : string)
| VObject (id : nat)
| VFunc (id : nat) (body : outcome)
with outcome : Type :=
| Return (v : value)
| Raise (exn : string).

(** An object is the namespace [getattr] resolves names in. *)
Abbreviation pyobj := (gmap string value).

(** [x is None] *)
Definition is_none (v : value) : bool :=
  match v with
  | VNone => true
  | _ => false
  end.

(** [bool(x)]: [None], [False], zero and the empty string are falsy;
    instances and callables define neither [__bool__] nor [__len__] and
    are truthy. *)
Definition truthy (v : value) : bool :=
  match v with
  | VNone => false
  | VBool b => b
  | VInt n => negb (n =? 0)%Z
  | VStr s => match s with EmptyString => false | String _ _ => true end
  | VObject _ => true
  | VFunc _ _ => true
  end.

(** [callable(x)] *)
Definition callable (v : value) : bool :=
  match v with
  | VFunc _ _ => true
  | _ => false
  end.

(** [getattr(o, name, dflt)] *)
Definition getattr (o : pyobj) (name : string) (dflt : value) : value :=
  match o !! name with
  | Some v => v
  | None => dflt
  end.

(** [hasattr(o, name)] *)
Definition hasattr (o : pyobj) (name : string) : bool :=
  match o !! name with
  | Some _ => true
  | None => false
  end.

(** [x and y] on two booleans: [x] when [x] is falsy, else [y]. *)
Definition py_and (x y : bool) : bool := if x then y else x.

(** *** Effects: calls made and exceptions raised *)

Inductive event : Type := ECall (id : nat).

Inductive result (A : Type) : Type :=
| Ok (a : A)
| Exn (exn : string).
Arguments Ok {A} a.
Arguments Exn {A} exn.

(** A computation yields the calls it made, in order, and its result. *)
Definition Eff (A : Type) : Type := (list event * result A)%type.

#[global] Instance Eff_ret : MRet Eff := λ A a, ([], Ok a).

#[global] Instance Eff_bind : MBind Eff := λ A B k m,
  match m with
  | (t, Ok a) => let '(t', r) := k a in ((t ++ t')%list, r)
  | (t, Exn e) => (t, Exn e)
  end.

(** [f()] *)
Definition call (f : value) : Eff value :=
  match f with
  | VFunc id (Return v) => ([ECall id], Ok v)
  | VFunc id (Raise e) => ([ECall id], Exn e)
  | _ => ([], Exn "TypeError")
  end.

Definition trace {A} (m : Eff A) : list event := m.1.
Definition outcome_of {A} (m : Eff A) : result A := m.2.

End Py.

Export Py.

(** ** The capability helpers *)

Definition PROVIDES_SECURE_ATTRIBUTE : string := "provides_secure_connection".
Definition PROVIDES_MUXED_ATTRIBUTE : string := "provides_muxed_connection".

Definition transport_provides_secure_connection (transport : pyobj) : bool :=
  truthy (getattr transport PROVIDES_SECURE_ATTRIBUTE (VBool false)).

Definition transport_provides_muxed_connection (transport : pyobj) : bool :=
  truthy (getattr transport PROVIDES_MUXED_ATTRIBUTE (VBool false)).

Definition transport_provides_secure_muxed (transport : pyobj) : bool :=
  py_and (transport_provides_secure_connection transport)
         (transport_provides_muxed_connection transport).

Definition muxed_conn_has_resource_scope (muxed_conn : pyobj) : bool :=
  py_and (hasattr muxed_conn "set_resource_scope")
         (callable (getattr muxed_conn "set_resource_scope" VNone)).

Definition muxed_conn_has_establishment_wait (muxed_conn : pyobj) : bool :=
  let has_established := hasattr muxed_conn "is_established" in
  let has_event := hasattr muxed_conn "_connected_event" in
  truthy (VBool (py_and has_established has_event)).

Definition muxed_conn_has_negotiation_semaphore (muxed_conn : pyobj) : bool :=
  py_and (hasattr muxed_conn "_negotiation_semaphore")
         (negb (is_none (getattr muxed_conn "_negotiation_semaphore" VNone))).

Definition muxed_conn_get_establishment_waiter (muxed_conn : pyobj) : value :=
  getattr muxed_conn "_connected_event" VNone.

Definition muxed_conn_is_established (muxed_conn : pyobj) : Eff bool :=
  let established := getattr muxed_conn "is_established" VNone in
  if is_none established then mret true
  else if callable established then
    r ← call established; mret (truthy r)
  else mret (truthy established).

(** ** The upgrade plan *)

Inductive UpgradePlan : Type :=
| RunBoth
| RunMuxerOnly
| RunSecurityOnly
| RunNeither.

(** Modelled from the spec: the Upgrade Planner, the swarm's choice of the
    upgrade stages to run from the two transport flags; the swarm is not
    among the sources, so the four rows are those of the spec's table.  (The
    docstring of [capabilities.py] words the muxed-only row as "use as-is".) *)
Definition Planner (providesSecure providesMuxed : bool) : UpgradePlan :=
  match providesSecure, providesMuxed with
  | false, false => RunBoth
  | true, false => RunMuxerOnly
  | false, true => RunSecurityOnly
  | true, true => RunNeither
  end.

(** The plan of a transport: the Planner on the classifier's two answers. *)
Definition plan_of (transport : pyobj) : UpgradePlan :=
  Planner (transport_provides_secure_connection transport)
          (transport_provides_muxed_connection transport).

(** ** Sample objects, after the fixtures of [test_capabilities.py] *)

Definition no_attr : pyobj := ∅.


Definition conn_status_none : pyobj := {[ "is_established" := VNone ]}.

Definition conn_event_none : pyobj :=
  {[ "is_established" := VBool true; "_connected_event" := VNone ]}.

(** * Properties *)

(** ** Attribute probes *)

Section Probes.
Context (o : pyobj) (name : string).

Lemma getattr_present v dflt : o !! name = Some v → getattr o name dflt = v.
Proof. unfold getattr. by intros ->. Qed.

Lemma getattr_absent dflt : o !! name = None → getattr o name dflt = dflt.
Proof. unfold getattr. by intros ->. Qed.

Lemma hasattr_present v : o !! name = Some v → hasattr o name = true.
Proof. unfold hasattr. by intros ->. Qed.

Lemma hasattr_absent : o !! name = None → hasattr o name = false.
Proof. unfold hasattr. by intros ->. Qed.

Lemma hasattr_is_Some : hasattr o name = true ↔ is_Some (o !! name).
Proof.
  unfold hasattr. destruct (o !! name) as [v|]; split; done.
Qed.
End Probes.

Lemma py_and_andb x y : py_and x y = x && y.
Proof. by destruct x. Qed.

Lemma is_none_true v : is_none v = true ↔ v = VNone.
Proof. by destruct v. Qed.

Lemma is_none_false v : is_none v = false ↔ v ≠ VNone.
Proof. destruct v; split; (done || congruence). Qed.

Lemma callable_not_none v : callable v = true → is_none v = false.
Proof. by destruct v. Qed.

Lemma callable_inv v : callable v = true → ∃ id body, v = VFunc id body.
Proof. destruct v; try done. by eexists _, _. Qed.

(** Resolve the probes of an operation from the lookups in the context. *)
Ltac probe :=
  repeat match goal with
         | H : ?o !! ?n = Some ?v |- context [getattr ?o ?n ?d] =>
             rewrite (getattr_present o n v d H)
         | H : ?o !! ?n = None |- context [getattr ?o ?n ?d] =>
             rewrite (getattr_absent o n d H)
         | H : ?o !! ?n = Some ?v |- context [hasattr ?o ?n] =>
             rewrite (hasattr_present o n v H)
         | H : ?o !! ?n = None |- context [hasattr ?o ?n] =>
             rewrite (hasattr_absent o n H)
         end.

(** ** Transport flags *)

(** C7: each transport flag is false when its marker is absent and is the
    truthiness of the marker's value when it is present; a non-zero integer
    is truthy, and zero, the empty string and [None] are falsy. *)
Theorem transport_flags_truthiness (T : pyobj) :
  (T !! PROVIDES_SECURE_ATTRIBUTE = None →
     transport_provides_secure_connection T = false) ∧
  (∀ v, T !! PROVIDES_SECURE_ATTRIBUTE = Some v →
     transport_provides_secure_connection T = truthy v) ∧
  (T !! PROVIDES_MUXED_ATTRIBUTE = None →
     transport_provides_muxed_connection T = false) ∧
  (∀ v, T !! PROVIDES_MUXED_ATTRIBUTE = Some v →
     transport_provides_muxed_connection T = truthy v) ∧
  (∀ n : Z, n ≠ 0%Z → truthy (VInt n) = true) ∧
  truthy (VInt 0) = false ∧ truthy (VStr "") = false ∧
  truthy VNone = false ∧ truthy (VBool false) = false.
Proof.
  unfold transport_provides_secure_connection,
    transport_provides_muxed_connection.
  repeat split; try (intros; probe; reflexivity).
  intros n Hn. simpl. by apply negb_true_iff, Z.eqb_neq.
Qed.

Lemma transport_flags_truthiness_witness :
  transport_provides_secure_connection no_attr = false ∧
  transport_provides_secure_connection
    {[ PROVIDES_SECURE_ATTRIBUTE := VInt 1 ]} = true ∧
  transport_provides_muxed_connection no_attr = false ∧
  transport_provides_muxed_connection
    {[ PROVIDES_MUXED_ATTRIBUTE := VStr "" ]} = false ∧
  truthy (VInt 7) = true.
Proof.
  destruct (transport_flags_truthiness no_attr) as (Hs & _ & Hm & _ & Hn & _).
  destruct (transport_flags_truthiness
              {[ PROVIDES_SECURE_ATTRIBUTE := VInt 1 ]}) as (_ & Hs1 & _).
  destruct (transport_flags_truthiness
              {[ PROVIDES_MUXED_ATTRIBUTE := VStr "" ]}) as (_ & _ & _ & Hm1 & _).
  split; [|split; [|split; [|split]]].
  - apply Hs. reflexivity.
  - apply (Hs1 (VInt 1)). reflexivity.
  - apply Hm. reflexivity.
  - apply (Hm1 (VStr "")). reflexivity.
  - apply Hn. lia.
Defined.

(** C3: the combined flag is the conjunction of the two flags. *)
Theorem transport_provides_secure_muxed_and (T : pyobj) :
  transport_provides_secure_muxed T =
  transport_provides_secure_connection T &&
  transport_provides_muxed_connection T.
Proof. unfold transport_provides_secure_muxed. apply py_and_andb. Qed.

(** ** The upgrade plan *)

(** C4: the plan is a function of the two flags alone, defined on all four
    pairs as in the table; each plan is produced by exactly one pair, every
    plan is produced, and a transport's plan is [RunNeither] exactly when
    [transport_provides_secure_muxed] holds of it. *)
Theorem planner_table :
  Planner false false = RunBoth ∧
  Planner true false = RunMuxerOnly ∧
  Planner false true = RunSecurityOnly ∧
  Planner true true = RunNeither ∧
  (∀ s m : bool,
     (Planner s m = RunBoth ↔ s = false ∧ m = false) ∧
     (Planner s m = RunMuxerOnly ↔ s = true ∧ m = false) ∧
     (Planner s m = RunSecurityOnly ↔ s = false ∧ m = true) ∧
     (Planner s m = RunNeither ↔ s = true ∧ m = true)) ∧
  (∀ p : UpgradePlan, ∃ s m : bool, Planner s m = p) ∧
  (∀ T : pyobj,
     plan_of T = RunNeither ↔ transport_provides_secure_muxed T = true).
Proof.
  repeat split; try (by destruct s, m); try (by intros [-> ->]).
  - destruct p; [by exists false, false | by exists true, false
                 | by exists false, true | by exists true, true].
  - unfold plan_of, transport_provides_secure_muxed.
    by destruct (transport_provides_secure_connection T),
                (transport_provides_muxed_connection T).
  - unfold plan_of, transport_provides_secure_muxed.
    by destruct (transport_provides_secure_connection T),
                (transport_provides_muxed_connection T).
Qed.

(** ** Connection probes *)

(** C5: the resource-scope probe is false when [set_resource_scope] is
    absent, when it is [None], when it is an integer or any other value that
    is not callable, and true exactly when it is present and callable. *)
Theorem muxed_conn_has_resource_scope_cases (C : pyobj) :
  (C !! "set_resource_scope" = None →
     muxed_conn_has_resource_scope C = false) ∧
  (C !! "set_resource_scope" = Some VNone →
     muxed_conn_has_resource_scope C = false) ∧
  (∀ n, C !! "set_resource_scope" = Some (VInt n) →
     muxed_conn_has_resource_scope C = false) ∧
  (∀ v, C !! "set_resource_scope" = Some v → callable v = false →
     muxed_conn_has_resource_scope C = false) ∧
  (muxed_conn_has_resource_scope C = true ↔
     ∃ v, C !! "set_resource_scope" = Some v ∧ callable v = true).
Proof.
  unfold muxed_conn_has_resource_scope.
  repeat split; try (intros; probe; done).
  - destruct (C !! "set_resource_scope") as [v|] eqn:E; probe; [|done].
    simpl. intros Hc. by exists v.
  - intros (v & E & Hc). by probe.
Qed.

Lemma muxed_conn_has_resource_scope_witness :
  muxed_conn_has_resource_scope no_attr = false ∧
  muxed_conn_has_resource_scope {[ "set_resource_scope" := VNone ]} = false ∧
  muxed_conn_has_resource_scope {[ "set_resource_scope" := VInt 42 ]} = false ∧
  muxed_conn_has_resource_scope
    {[ "set_resource_scope" := VFunc 0 (Return VNone) ]} = true.
Proof.
  split; [|split; [|split]].
  - by apply (proj1 (muxed_conn_has_resource_scope_cases no_attr)).
  - by apply (proj1 (proj2 (muxed_conn_has_resource_scope_cases _))).
  - destruct (muxed_conn_has_resource_scope_cases
                {[ "set_resource_scope" := VInt 42 ]}) as (_ & _ & H & _).
    by apply (H 42%Z).
  - destruct (muxed_conn_has_resource_scope_cases
                {[ "set_resource_scope" := VFunc 0 (Return VNone) ]})
      as (_ & _ & _ & _ & H).
    apply H. by exists (VFunc 0 (Return VNone)).
Defined.

(** C2: the establishment-wait probe is true exactly when both
    [is_established] and [_connected_event] are present; it is false when
    either one is missing. *)
Theorem muxed_conn_has_establishment_wait_iff (C : pyobj) :
  (muxed_conn_has_establishment_wait C = true ↔
     is_Some (C !! "is_established") ∧ is_Some (C !! "_connected_event")) ∧
  (C !! "_connected_event" = None →
     muxed_conn_has_establishment_wait C = false) ∧
  (C !! "is_established" = None →
     muxed_conn_has_establishment_wait C = false).
Proof.
  unfold muxed_conn_has_establishment_wait. simpl.
  rewrite py_and_andb, andb_true_iff, !hasattr_is_Some.
  repeat split; try tauto.
  - intros E. probe. apply andb_false_r.
  - intros E. by probe.
Qed.

Lemma muxed_conn_has_establishment_wait_witness :
  muxed_conn_has_establishment_wait
    {[ "is_established" := VBool true; "_connected_event" := VObject 1 ]}
    = true ∧
  muxed_conn_has_establishment_wait {[ "is_established" := VBool true ]}
    = false ∧
  muxed_conn_has_establishment_wait {[ "_connected_event" := VObject 1 ]}
    = false ∧
  muxed_conn_has_establishment_wait no_attr = false.
Proof.
  split; [|split; [|split]].
  - apply (muxed_conn_has_establishment_wait_iff
             {[ "is_established" := VBool true;
                "_connected_event" := VObject 1 ]}).
    split; by eexists.
  - by apply (proj1 (proj2 (muxed_conn_has_establishment_wait_iff _))).
  - by apply (proj2 (proj2 (muxed_conn_has_establishment_wait_iff _))).
  - by apply (proj2 (proj2 (muxed_conn_has_establishment_wait_iff no_attr))).
Defined.

(** C6: the negotiation-semaphore probe is true exactly when
    [_negotiation_semaphore] is present and is not [None], whatever the
    value's truthiness or callability; it is false when the member is absent
    or [None]. *)
Theorem muxed_conn_has_negotiation_semaphore_iff (C : pyobj) :
  (muxed_conn_has_negotiation_semaphore C = true ↔
     ∃ v, C !! "_negotiation_semaphore" = Some v ∧ v ≠ VNone) ∧
  (C !! "_negotiation_semaphore" = None →
     muxed_conn_has_negotiation_semaphore C = false) ∧
  (C !! "_negotiation_semaphore" = Some VNone →
     muxed_conn_has_negotiation_semaphore C = false) ∧
  (∀ v, C !! "_negotiation_semaphore" = Some v → v ≠ VNone →
     muxed_conn_has_negotiation_semaphore C = true).
Proof.
  unfold muxed_conn_has_negotiation_semaphore.
  repeat split; try (intros; probe; done).
  - destruct (C !! "_negotiation_semaphore") as [v|] eqn:E; probe; [|done].
    simpl. intros Hn. exists v. split; [done|].
    apply is_none_false. by apply negb_true_iff.
  - intros (v & E & Hn). probe. simpl.
    by apply negb_true_iff, is_none_false.
  - intros v E Hn. probe. simpl. by apply negb_true_iff, is_none_false.
Qed.

Lemma muxed_conn_has_negotiation_semaphore_witness :
  muxed_conn_has_negotiation_semaphore
    {[ "_negotiation_semaphore" := VInt 0 ]} = true ∧
  muxed_conn_has_negotiation_semaphore
    {[ "_negotiation_semaphore" := VObject 5 ]} = true ∧
  muxed_conn_has_negotiation_semaphore
    {[ "_negotiation_semaphore" := VNone ]} = false ∧
  muxed_conn_has_negotiation_semaphore no_attr = false.
Proof.
  split; [|split; [|split]].
  - destruct (muxed_conn_has_negotiation_semaphore_iff
                {[ "_negotiation_semaphore" := VInt 0 ]}) as (_ & _ & _ & H).
    apply (H (VInt 0)); [reflexivity | discriminate].
  - apply (muxed_conn_has_negotiation_semaphore_iff
             {[ "_negotiation_semaphore" := VObject 5 ]}).
    by exists (VObject 5).
  - by apply (proj1 (proj2 (proj2
                (muxed_conn_has_negotiation_semaphore_iff _)))).
  - by apply (proj1 (proj2
                (muxed_conn_has_negotiation_semaphore_iff no_attr))).
Defined.

(** C8: the waiter accessor returns the value of [_connected_event] whenever
    the connection carries that member, also on a connection without
    [is_established], and [None] when the member is not carried. *)
Theorem muxed_conn_get_establishment_waiter_lookup (C : pyobj) :
  (∀ h, C !! "_connected_event" = Some h →
     muxed_conn_get_establishment_waiter C = h ∧
     muxed_conn_get_establishment_waiter (delete "is_established" C) = h) ∧
  (C !! "_connected_event" = None →
     muxed_conn_get_establishment_waiter C = VNone).
Proof.
  unfold muxed_conn_get_establishment_waiter. split.
  - intros h E. split; [by probe|].
    apply getattr_present. by rewrite lookup_delete_ne.
  - intros E. by probe.
Qed.

Lemma muxed_conn_get_establishment_waiter_witness :
  muxed_conn_get_establishment_waiter
    {[ "_connected_event" := VObject 9 ]} = VObject 9 ∧
  muxed_conn_get_establishment_waiter no_attr = VNone.
Proof.
  split.
  - by apply (proj1 (muxed_conn_get_establishment_waiter_lookup
                       {[ "_connected_event" := VObject 9 ]}) (VObject 9)).
  - by apply (proj2 (muxed_conn_get_establishment_waiter_lookup no_attr)).
Defined.

(** C10: on a connection that has [is_established] and whose
    [_connected_event] is present but [None], the establishment-wait probe is
    true while the waiter accessor returns [None]. *)
Theorem establishment_wait_without_waiter (C : pyobj) (v : value) :
  C !! "is_established" = Some v →
  C !! "_connected_event" = Some VNone →
  muxed_conn_has_establishment_wait C = true ∧
  muxed_conn_get_establishment_waiter C = VNone.
Proof.
  intros Es Ee.
  unfold muxed_conn_has_establishment_wait,
    muxed_conn_get_establishment_waiter.
  by probe.
Qed.

Lemma establishment_wait_without_waiter_witness :
  muxed_conn_has_establishment_wait conn_event_none = true ∧
  muxed_conn_get_establishment_waiter conn_event_none = VNone.
Proof.
  apply (establishment_wait_without_waiter conn_event_none (VBool true));
    reflexivity.
Defined.

(** ** Establishment status *)

Lemma muxed_conn_is_established_absent (C : pyobj) :
  C !! "is_established" = None → muxed_conn_is_established C = ([], Ok true).
Proof. intros E. unfold muxed_conn_is_established. by probe. Qed.

Lemma muxed_conn_is_established_value (C : pyobj) (v : value) :
  C !! "is_established" = Some v → callable v = false →
  muxed_conn_is_established C = ([], Ok (if is_none v then true else truthy v)).
Proof.
  intros E Hc. unfold muxed_conn_is_established. probe.
  rewrite Hc. by destruct (is_none v).
Qed.

Lemma muxed_conn_is_established_call (C : pyobj) (v : value) :
  C !! "is_established" = Some v → callable v = true →
  muxed_conn_is_established C = (r ← call v; mret (truthy r)).
Proof.
  intros E Hc. unfold muxed_conn_is_established. probe.
  by rewrite (callable_not_none v Hc), Hc.
Qed.

(** C1, as the code has it: the status is true when [is_established] is
    absent or is [None]; when the member is callable and calling it returns
    [r], the status is the truthiness of [r]; when the member is neither
    [None] nor callable, the status is the truthiness of its value, so that
    0 gives false and 1 gives true. *)
Theorem muxed_conn_is_established_cases (C : pyobj) :
  (C !! "is_established" = None →
     muxed_conn_is_established C = ([], Ok true)) ∧
  (C !! "is_established" = Some VNone →
     muxed_conn_is_established C = ([], Ok true)) ∧
  (∀ v t r, C !! "is_established" = Some v → callable v = true →
     call v = (t, Ok r) →
     muxed_conn_is_established C = (t, Ok (truthy r))) ∧
  (∀ v, C !! "is_established" = Some v → callable v = false → v ≠ VNone →
     muxed_conn_is_established C = ([], Ok (truthy v))) ∧
  (C !! "is_established" = Some (VInt 0) →
     muxed_conn_is_established C = ([], Ok false)) ∧
  (C !! "is_established" = Some (VInt 1) →
     muxed_conn_is_established C = ([], Ok true)).
Proof.
  repeat split.
  - apply muxed_conn_is_established_absent.
  - intros E. by rewrite (muxed_conn_is_established_value C VNone).
  - intros v t r E Hc Hr.
    rewrite (muxed_conn_is_established_call C v E Hc), Hr. simpl.
    by rewrite app_nil_r.
  - intros v E Hc Hn. rewrite (muxed_conn_is_established_value C v E Hc).
    apply is_none_false in Hn. by rewrite Hn.
  - intros E. by rewrite (muxed_conn_is_established_value C (VInt 0)).
  - intros E. by rewrite (muxed_conn_is_established_value C (VInt 1)).
Qed.

Lemma muxed_conn_is_established_cases_witness :
  muxed_conn_is_established no_attr = ([], Ok true) ∧
  muxed_conn_is_established conn_status_none = ([], Ok true) ∧
  muxed_conn_is_established
    {[ "is_established" := VFunc 2 (Return (VBool false)) ]}
    = ([ECall 2], Ok false) ∧
  muxed_conn_is_established {[ "is_established" := VStr "" ]}
    = ([], Ok false) ∧
  muxed_conn_is_established {[ "is_established" := VInt 0 ]}
    = ([], Ok false) ∧
  muxed_conn_is_established {[ "is_established" := VInt 1 ]}
    = ([], Ok true).
Proof.
  split; [|split; [|split; [|split; [|split]]]].
  - by apply (proj1 (muxed_conn_is_established_cases no_attr)).
  - by apply (proj1 (proj2
                (muxed_conn_is_established_cases conn_status_none))).
  - destruct (muxed_conn_is_established_cases
                {[ "is_established" := VFunc 2 (Return (VBool false)) ]})
      as (_ & _ & H & _).
    by apply (H (VFunc 2 (Return (VBool false))) [ECall 2] (VBool false)).
  - destruct (muxed_conn_is_established_cases
                {[ "is_established" := VStr "" ]}) as (_ & _ & _ & H & _).
    by apply (H (VStr "")).
  - destruct (muxed_conn_is_established_cases
                {[ "is_established" := VInt 0 ]}) as (_ & _ & _ & _ & H & _).
    by apply H.
  - destruct (muxed_conn_is_established_cases
                {[ "is_established" := VInt 1 ]}) as (_ & _ & _ & _ & _ & H).
    by apply H.
Defined.

(** C1, as the claim has it, fails: [is_established = None] is a present,
    falsy member that is not callable, and the status is true, not the
    truthiness of [None]. *)
Lemma muxed_conn_is_established_none_counterexample :
  conn_status_none !! "is_established" = Some VNone ∧
  callable VNone = false ∧
  truthy VNone = false ∧
  muxed_conn_is_established conn_status_none = ([], Ok true) ∧
  muxed_conn_is_established conn_status_none ≠ ([], Ok (truthy VNone)).
Proof. by repeat split. Qed.

(** ** Totality *)

(** Reading the status raises only when the member is a callable whose own
    call raises, and then with that exception. *)
Lemma muxed_conn_is_established_raise_inv (C : pyobj) (e : string) :
  outcome_of (muxed_conn_is_established C) = Exn e →
  ∃ id, C !! "is_established" = Some (VFunc id (Raise e)).
Proof.
  destruct (C !! "is_established") as [v|] eqn:E.
  - destruct (callable v) eqn:Hc.
    + rewrite (muxed_conn_is_established_call C v E Hc).
      destruct (callable_inv v Hc) as (id & [r|e'] & ->); simpl; [done|].
      intros [= ->]. by exists id.
    + by rewrite (muxed_conn_is_established_value C v E Hc).
  - by rewrite (muxed_conn_is_established_absent C E).
Qed.

(** Every call made while reading the status is a call of the member, which
    is then callable. *)
Lemma muxed_conn_is_established_trace_inv (C : pyobj) (id : nat) :
  ECall id ∈ trace (muxed_conn_is_established C) →
  ∃ body, C !! "is_established" = Some (VFunc id body).
Proof.
  destruct (C !! "is_established") as [v|] eqn:E.
  - destruct (callable v) eqn:Hc.
    + rewrite (muxed_conn_is_established_call C v E Hc).
      destruct (callable_inv v Hc) as (id' & [r|e'] & ->); simpl;
        intros [= ->]%list_elem_of_singleton; by eexists.
    + rewrite (muxed_conn_is_established_value C v E Hc). simpl.
      by intros ?%not_elem_of_nil.
  - rewrite (muxed_conn_is_established_absent C E). simpl.
    by intros ?%not_elem_of_nil.
Qed.

(** C9: every operation answers on every transport and connection.  With a
    marker absent each operation returns its default (false, [None], and
    true for the status); a member that is present and not callable is never
    called and makes no operation raise; the status is the one operation
    that can raise, and only with the exception of the member's own call. *)
Theorem classifier_total (T C : pyobj) :
  (T !! PROVIDES_SECURE_ATTRIBUTE = None →
     transport_provides_secure_connection T = false ∧
     transport_provides_secure_muxed T = false) ∧
  (T !! PROVIDES_MUXED_ATTRIBUTE = None →
     transport_provides_muxed_connection T = false ∧
     transport_provides_secure_muxed T = false) ∧
  (C !! "set_resource_scope" = None →
     muxed_conn_has_resource_scope C = false) ∧
  (C !! "_negotiation_semaphore" = None →
     muxed_conn_has_negotiation_semaphore C = false) ∧
  (C !! "_connected_event" = None →
     muxed_conn_has_establishment_wait C = false ∧
     muxed_conn_get_establishment_waiter C = VNone) ∧
  (C !! "is_established" = None →
     muxed_conn_has_establishment_wait C = false ∧
     muxed_conn_is_established C = ([], Ok true)) ∧
  (∀ v, C !! "set_resource_scope" = Some v → callable v = false →
     muxed_conn_has_resource_scope C = false) ∧
  (∀ v, C !! "is_established" = Some v → callable v = false →
     ∃ b, muxed_conn_is_established C = ([], Ok b)) ∧
  (∀ e, outcome_of (muxed_conn_is_established C) = Exn e →
     ∃ id, C !! "is_established" = Some (VFunc id (Raise e))) ∧
  (∀ id, ECall id ∈ trace (muxed_conn_is_established C) →
     ∃ body, C !! "is_established" = Some (VFunc id body)).
Proof.
  split; [|split; [|split; [|split; [|split; [|split; [|split;
    [|split; [|split]]]]]]]].
  - intros E. unfold transport_provides_secure_muxed,
      transport_provides_secure_connection. by probe.
  - intros E. unfold transport_provides_secure_muxed,
      transport_provides_muxed_connection. probe. simpl.
    split; [done|]. rewrite py_and_andb. apply andb_false_r.
  - intros E. unfold muxed_conn_has_resource_scope. by probe.
  - intros E. unfold muxed_conn_has_negotiation_semaphore. by probe.
  - intros E. unfold muxed_conn_has_establishment_wait,
      muxed_conn_get_establishment_waiter. probe. simpl.
    split; [|done]. rewrite py_and_andb. apply andb_false_r.
  - intros E. split; [|by apply muxed_conn_is_established_absent].
    unfold muxed_conn_has_establishment_wait. by probe.
  - intros v E Hc. unfold muxed_conn_has_resource_scope. probe.
    by rewrite Hc.
  - intros v E Hc. eexists. by apply muxed_conn_is_established_value.
  - apply muxed_conn_is_established_raise_inv.
  - apply muxed_conn_is_established_trace_inv.
Qed.

Lemma classifier_total_witness :
  transport_provides_secure_muxed no_attr = false ∧
  muxed_conn_has_resource_scope no_attr = false ∧
  muxed_conn_has_negotiation_semaphore no_attr = false ∧
  muxed_conn_has_establishment_wait no_attr = false ∧
  muxed_conn_get_establishment_waiter no_attr = VNone ∧
  muxed_conn_is_established no_attr = ([], Ok true) ∧
  muxed_conn_has_resource_scope {[ "set_resource_scope" := VInt 42 ]}
    = false ∧
  (∃ b, muxed_conn_is_established {[ "is_established" := VObject 4 ]}
        = ([], Ok b)).
Proof.
  destruct (classifier_total no_attr no_attr)
    as (Hs & _ & Hr & Hn & He & Hi & _).
  destruct (classifier_total no_attr {[ "set_resource_scope" := VInt 42 ]})
    as (_ & _ & _ & _ & _ & _ & Hr' & _).
  destruct (classifier_total no_attr {[ "is_established" := VObject 4 ]})
    as (_ & _ & _ & _ & _ & _ & _ & Hi' & _).
  split; [|split; [|split; [|split; [|split; [|split; [|split]]]]]].
  - by apply Hs.
  - by apply Hr.
  - by apply Hn.
  - by apply He.
  - by apply He.
  - by apply Hi.
  - by apply (Hr' (VInt 42)).
  - by apply (Hi' (VObject 4)).
Defined.

(** * Further properties of the helpers *)

(** ** What each probe reads *)



(** X2: each connection probe reads its own members only: two connections
    that agree on the members a probe names get the same answer from it, the
    calls made included. *)
Theorem conn_probes_read_set (C C' : pyobj) :
  (C !! "set_resource_scope" = C' !! "set_resource_scope" →
     muxed_conn_has_resource_scope C = muxed_conn_has_resource_scope C') ∧
  (C !! "is_established" = C' !! "is_established" →
   C !! "_connected_event" = C' !! "_connected_event" →
     muxed_conn_has_establishment_wait C
       = muxed_conn_has_establishment_wait C') ∧
  (C !! "_negotiation_semaphore" = C' !! "_negotiation_semaphore" →
     muxed_conn_has_negotiation_semaphore C
       = muxed_conn_has_negotiation_semaphore C') ∧
  (C !! "_connected_event" = C' !! "_connected_event" →
     muxed_conn_get_establishment_waiter C
       = muxed_conn_get_establishment_waiter C') ∧
  (C !! "is_established" = C' !! "is_established" →
     muxed_conn_is_established C = muxed_conn_is_established C').
Proof.
  unfold muxed_conn_has_resource_scope, muxed_conn_has_establishment_wait,
    muxed_conn_has_negotiation_semaphore,
    muxed_conn_get_establishment_waiter, muxed_conn_is_established,
    getattr, hasattr.
  repeat split; intros;
    by repeat match goal with H : _ = _ |- _ => rewrite H; clear H end.
Qed.

Lemma conn_probes_read_set_witness :
  muxed_conn_is_established
    {[ "is_established" := VBool false; "_connected_event" := VObject 1 ]}
  = muxed_conn_is_established {[ "is_established" := VBool false ]} ∧
  muxed_conn_get_establishment_waiter conn_event_none
  = muxed_conn_get_establishment_waiter {[ "_connected_event" := VNone ]}.
Proof.
  split.
  - by apply (proj2 (proj2 (proj2 (proj2 (conn_probes_read_set
        {[ "is_established" := VBool false; "_connected_event" := VObject 1 ]}
        {[ "is_established" := VBool false ]}))))).
  - by apply (proj1 (proj2 (proj2 (proj2 (conn_probes_read_set
        conn_event_none {[ "_connected_event" := VNone ]}))))).
Defined.

(** X3: reading the status calls the member once when it is callable and
    calls nothing otherwise; a callable result is not called in turn. *)
Theorem muxed_conn_is_established_trace (C : pyobj) :
  trace (muxed_conn_is_established C)
    = match C !! "is_established" with
      | Some (VFunc id _) => [ECall id]
      | _ => []
      end ∧
  (length (trace (muxed_conn_is_established C)) ≤ 1)%nat.
Proof.
  destruct (C !! "is_established") as [v|] eqn:E.
  - destruct (callable v) eqn:Hc.
    + rewrite (muxed_conn_is_established_call C v E Hc).
      destruct (callable_inv v Hc) as (id & [r|e] & ->); simpl; split; lia || done.
    + rewrite (muxed_conn_is_established_value C v E Hc).
      destruct v; simpl; try done; split; lia || done.
  - rewrite (muxed_conn_is_established_absent C E). simpl. split; lia || done.
Qed.

(** ** [None] and absence *)

(** X4: the probes that read a member with a [None] default cannot tell a
    member bound to [None] from a missing one; the establishment-wait probe
    can, for it tests presence alone. *)
Theorem none_member_as_absent (C : pyobj) :
  muxed_conn_has_resource_scope (<["set_resource_scope" := VNone]> C)
    = muxed_conn_has_resource_scope (delete "set_resource_scope" C) ∧
  muxed_conn_has_negotiation_semaphore
      (<["_negotiation_semaphore" := VNone]> C)
    = muxed_conn_has_negotiation_semaphore
        (delete "_negotiation_semaphore" C) ∧
  muxed_conn_get_establishment_waiter (<["_connected_event" := VNone]> C)
    = muxed_conn_get_establishment_waiter (delete "_connected_event" C) ∧
  muxed_conn_is_established (<["is_established" := VNone]> C)
    = muxed_conn_is_established (delete "is_established" C) ∧
  muxed_conn_has_establishment_wait (<["_connected_event" := VNone]> C)
    = hasattr C "is_established" ∧
  muxed_conn_has_establishment_wait (delete "_connected_event" C) = false.
Proof.
  unfold muxed_conn_has_resource_scope, muxed_conn_has_negotiation_semaphore,
    muxed_conn_get_establishment_waiter, muxed_conn_is_established,
    muxed_conn_has_establishment_wait, getattr, hasattr.
  rewrite !lookup_insert_eq, !lookup_delete_eq.
  rewrite (lookup_insert_ne C "_connected_event" "is_established") by done.
  rewrite (lookup_delete_ne C "_connected_event" "is_established") by done.
  repeat split; try done; simpl; by destruct (C !! "is_established").
Qed.

(** ** Setting a flag and reading it back *)

(** X5: a transport that binds its markers to booleans reads them back: each
    flag is the boolean bound to its marker, and the combined flag is their
    conjunction, whatever else the transport carries. *)
Theorem transport_flags_set_read (T : pyobj) (s m : bool) :
  let T' := <[PROVIDES_SECURE_ATTRIBUTE := VBool s]>
              (<[PROVIDES_MUXED_ATTRIBUTE := VBool m]> T) in
  transport_provides_secure_connection T' = s ∧
  transport_provides_muxed_connection T' = m ∧
  transport_provides_secure_muxed T' = s && m.
Proof.
  intros T'.
  assert (Hs : transport_provides_secure_connection T' = s).
  { unfold transport_provides_secure_connection, getattr, T'.
    by rewrite lookup_insert_eq. }
  assert (Hm : transport_provides_muxed_connection T' = m).
  { unfold transport_provides_muxed_connection, getattr, T'.
    rewrite lookup_insert_ne by done. by rewrite lookup_insert_eq. }
  unfold transport_provides_secure_muxed.
  by rewrite Hs, Hm, py_and_andb.
Qed.

(** X6: the combined flag holds exactly when both markers are present and
    bound to truthy values. *)
Theorem transport_provides_secure_muxed_iff (T : pyobj) :
  transport_provides_secure_muxed T = true ↔
  ∃ v w, T !! PROVIDES_SECURE_ATTRIBUTE = Some v ∧
         T !! PROVIDES_MUXED_ATTRIBUTE = Some w ∧
         truthy v = true ∧ truthy w = true.
Proof.
  unfold transport_provides_secure_muxed,
    transport_provides_secure_connection,
    transport_provides_muxed_connection, getattr.
  rewrite py_and_andb, andb_true_iff. split.
  - destruct (T !! PROVIDES_SECURE_ATTRIBUTE) as [v|]; [|by intros [? ?]].
    destruct (T !! PROVIDES_MUXED_ATTRIBUTE) as [w|]; [|by intros [? ?]].
    intros [Hv Hw]. by exists v, w.
  - by intros (v & w & -> & -> & Hv & Hw).
Qed.

(** ** Establishment status: methods, values and exceptions *)

(** X7: a status method returning [r] and a status attribute bound to [r]
    give the same answer when [r] is neither [None] nor callable.  For
    [None] they differ: a method returning [None] reads as not established,
    an attribute bound to [None] as established. *)
Theorem is_established_method_or_value (C : pyobj) (id : nat) (r : value) :
  (callable r = false → r ≠ VNone →
     outcome_of (muxed_conn_is_established
                   (<["is_established" := VFunc id (Return r)]> C))
     = outcome_of (muxed_conn_is_established
                     (<["is_established" := r]> C))) ∧
  outcome_of (muxed_conn_is_established
                (<["is_established" := VFunc id (Return VNone)]> C))
    = Ok false ∧
  outcome_of (muxed_conn_is_established (<["is_established" := VNone]> C))
    = Ok true.
Proof.
  split; [|split].
  - intros Hc Hn.
    rewrite (muxed_conn_is_established_call _ (VFunc id (Return r)))
      by (by rewrite ?lookup_insert_eq).
    rewrite (muxed_conn_is_established_value _ r)
      by (by rewrite ?lookup_insert_eq).
    apply is_none_false in Hn. by rewrite Hn.
  - by rewrite (muxed_conn_is_established_call _ (VFunc id (Return VNone)))
      by (by rewrite ?lookup_insert_eq).
  - by rewrite (muxed_conn_is_established_value _ VNone)
      by (by rewrite ?lookup_insert_eq).
Qed.

Lemma is_established_method_or_value_witness :
  outcome_of (muxed_conn_is_established
                (<["is_established" := VFunc 0 (Return (VInt 0))]> no_attr))
  = outcome_of (muxed_conn_is_established
                  (<["is_established" := VInt 0]> no_attr)).
Proof.
  apply (proj1 (is_established_method_or_value no_attr 0 (VInt 0)));
    [reflexivity | discriminate].
Defined.


(** ** The wait verdict and the waiter *)

(** X9: when the wait verdict is true the accessor returns the value of
    [_connected_event]; verdict and a waiter other than [None] together hold
    exactly when [is_established] is present and [_connected_event] is bound
    to a value other than [None]. *)
Theorem establishment_wait_gives_waiter (C : pyobj) :
  (muxed_conn_has_establishment_wait C = true →
     ∃ h, C !! "_connected_event" = Some h ∧
          muxed_conn_get_establishment_waiter C = h) ∧
  (muxed_conn_has_establishment_wait C = true ∧
   muxed_conn_get_establishment_waiter C ≠ VNone ↔
   is_Some (C !! "is_established") ∧
   ∃ h, C !! "_connected_event" = Some h ∧ h ≠ VNone).
Proof.
  unfold muxed_conn_has_establishment_wait,
    muxed_conn_get_establishment_waiter, getattr, hasattr. simpl.
  destruct (C !! "is_established") as [v|];
    destruct (C !! "_connected_event") as [h|]; simpl.
  - split; [by exists h|]. split.
    + intros [_ Hn]. split; [by eexists|]. by exists h.
    + by intros [_ (h' & [= ->] & Hn)].
  - split; [done|]. split; [by intros [? ?]|].
    by intros [_ (h' & ? & _)].
  - split; [done|]. split; [by intros [? ?]|].
    by intros [[? ?] _].
  - split; [done|]. split; [by intros [? ?]|].
    by intros [[? ?] _].
Qed.

Lemma establishment_wait_gives_waiter_witness :
  ∃ h, ({[ "is_established" := VBool false;
           "_connected_event" := VObject 1 ]} : pyobj)
         !! "_connected_event" = Some h ∧
       muxed_conn_get_establishment_waiter
         {[ "is_established" := VBool false;
            "_connected_event" := VObject 1 ]} = h.
Proof.
  apply (proj1 (establishment_wait_gives_waiter
                  {[ "is_established" := VBool false;
                     "_connected_event" := VObject 1 ]})).
  reflexivity.
Defined.
